(** * getcoinath: the Solana token all-time-high checker

    A shallow embedding of [getcoinath.py] and the properties its
    specification states about it.

    Conventions of the embedding.
    - Python [str] values are [string]s of ASCII characters; [None] is the
      [None] of an [option].
    - Python floats are the binary64 numbers of [PrimFloat].  A JSON number
      without a fraction is read by Python as an [int]; for the operations the
      script applies to prices ([==], [/], [-], [*] and the [f] format) an
      [int] of magnitude below 2^53 behaves as the float of the same value.
    - The provider's JSON documents are records typed after the provider's
      schema; every field is absent, [null] or a value of its documented type.
    - Console output, prompts and HTTP requests are recorded as a trace of
      events; a computation is a trace together with a returned value or a
      raised exception.  The console library is taken to print what it is
      given.
    - [datetime.fromisoformat] follows CPython 3.7 to 3.10, the versions for
      which the script's rewriting of a trailing [Z] is needed. *)

From Stdlib Require Import ZArith String Ascii List Lia Bool QArith Qabs.
From Stdlib Require Import DecimalString DecimalZ DecimalN DecimalPos.
From Stdlib Require Import PrimFloat SpecFloat FloatOps.
Import ListNotations.

Local Open Scope string_scope.
Local Open Scope Z_scope.

(** ** Python strings and integers *)

Module Py.

(** The line feed, written [\n] in the script's literals. *)
Definition nl : string := String (ascii_of_nat 10) EmptyString.

(** [len(s)] *)
Definition len (s : string) : Z := Z.of_nat (String.length s).

(** [str(n)] for an [int]. *)
Definition str_int (n : Z) : string := NilZero.string_of_int (Z.to_int n).

(** [s.zfill(w)] for a string of digits: zeros on the left up to width [w]. *)
Fixpoint zeros (n : nat) : string :=
  match n with
  | O => EmptyString
  | S n' => String "0" (zeros n')
  end.

Definition zfill (w : nat) (s : string) : string :=
  zeros (w - String.length s) ++ s.

(** [format(n, '0wd')] for a natural number [n]. *)
Definition fmt_0d (w : nat) (n : Z) : string := zfill w (str_int n).

Definition digit_char (d : Z) : ascii := ascii_of_nat (48 + Z.to_nat d).

(** The last [w] decimal digits of a natural number [n]. *)
Fixpoint digits (w : nat) (n : Z) : string :=
  match w with
  | O => EmptyString
  | S w' => digits w' (n / 10) ++ String (digit_char (n mod 10)) EmptyString
  end.

(** [s.endswith(suffix)] *)
Definition endswith (s suffix : string) : bool :=
  let n := String.length s in
  let k := String.length suffix in
  (k <=? n)%nat && String.eqb (substring (n - k) k s) suffix.

(** [s[:-1]] *)
Definition drop_last (s : string) : string :=
  substring 0 (String.length s - 1) s.

(** [s.replace(old, new)] where [old] is one character, as at every call of
    the script. *)
Fixpoint replace (s : string) (old : ascii) (new : string) : string :=
  match s with
  | EmptyString => EmptyString
  | String c s' =>
      if Ascii.eqb c old then new ++ replace s' old new
      else String c (replace s' old new)
  end.

(** [c.isspace()] on ASCII: tab to carriage return, the four separators
    FS, GS, RS, US and the space. *)
Definition isspace (c : ascii) : bool :=
  let n := nat_of_ascii c in
  ((9 <=? n) && (n <=? 13) || (28 <=? n) && (n <=? 32))%nat.

Fixpoint lstrip (s : string) : string :=
  match s with
  | EmptyString => EmptyString
  | String c s' => if isspace c then lstrip s' else s
  end.

Fixpoint rstrip (s : string) : string :=
  match s with
  | EmptyString => EmptyString
  | String c s' =>
      match rstrip s' with
      | EmptyString => if isspace c then EmptyString else String c EmptyString
      | r => String c r
      end
  end.

(** [s.strip()] *)
Definition strip (s : string) : string := rstrip (lstrip s).

Definition lower_char (c : ascii) : ascii :=
  let n := nat_of_ascii c in
  if ((65 <=? n) && (n <=? 90))%nat then ascii_of_nat (n + 32) else c.

Definition upper_char (c : ascii) : ascii :=
  let n := nat_of_ascii c in
  if ((97 <=? n) && (n <=? 122))%nat then ascii_of_nat (n - 32) else c.

Fixpoint map_string (f : ascii -> ascii) (s : string) : string :=
  match s with
  | EmptyString => EmptyString
  | String c s' => String (f c) (map_string f s')
  end.

(** [s.lower()] and [s.upper()] *)
Definition lower (s : string) : string := map_string lower_char s.
Definition upper (s : string) : string := map_string upper_char s.

(** Truth value of a string: [bool(s)]. *)
Definition truthy (s : string) : bool :=
  match s with
  | EmptyString => false
  | _ => true
  end.

(** [str(v)] of a value that is a string or [None], as an f-string renders
    it. *)
Definition str_opt (v : option string) : string :=
  match v with
  | Some s => s
  | None => "None"
  end.

Definition hex_digit (n : nat) : ascii :=
  if (n <? 10)%nat then ascii_of_nat (48 + n) else ascii_of_nat (87 + n).

(** One character of [repr(s)], inside quotes [q]. *)
Definition repr_char (q : ascii) (c : ascii) : string :=
  let n := nat_of_ascii c in
  if Ascii.eqb c q then String "\" (String c EmptyString)
  else if Ascii.eqb c "\" then "\\"
  else if (n =? 9)%nat then "\t"
  else if (n =? 10)%nat then "\n"
  else if (n =? 13)%nat then "\r"
  else if ((n <? 32) || (127 <=? n))%nat then
    String "\" (String "x" (String (hex_digit (n / 16)) (String (hex_digit (n mod 16)) EmptyString)))
  else String c EmptyString.

Fixpoint repr_body (q : ascii) (s : string) : string :=
  match s with
  | EmptyString => EmptyString
  | String c s' => repr_char q c ++ repr_body q s'
  end.

Fixpoint has_char (c : ascii) (s : string) : bool :=
  match s with
  | EmptyString => false
  | String d s' => Ascii.eqb c d || has_char c s'
  end.

(** [repr(s)]: single quotes, unless the string holds a single quote and no
    double quote. *)
Definition repr (s : string) : string :=
  let dq := ascii_of_nat 34 in
  let q := if has_char "'" s && negb (has_char dq s) then dq else "'"%char in
  String q (repr_body q s ++ String q EmptyString).

End Py.

(** ** Floats and their fixed-point rendering *)

Module Fmt.

(** Nearest integer to [num / den] for [0 <= num] and [0 < den], ties to the
    even neighbour: the rounding of Python's float formatting, which works on
    the exact binary value. *)
Definition round_half_even (num den : Z) : Z :=
  let q := num / den in
  let r := num mod den in
  match 2 * r ?= den with
  | Lt => q
  | Gt => q + 1
  | Eq => if Z.even q then q else q + 1
  end.

(** The magnitude [m * 2^e] scaled by [10^prec] and rounded to an integer. *)
Definition scaled_round (prec : nat) (m : positive) (e : Z) : Z :=
  if 0 <=? e then Z.pos m * 2 ^ e * 10 ^ Z.of_nat prec
  else round_half_even (Z.pos m * 10 ^ Z.of_nat prec) (2 ^ (- e)).

(** A non-negative integer [n] of units [10^-prec], written in fixed-point
    notation. *)
Definition fixed (prec : nat) (n : Z) : string :=
  let p := 10 ^ Z.of_nat prec in
  match prec with
  | O => Py.str_int n
  | _ => Py.str_int (n / p) ++ "." ++ Py.digits prec (n mod p)
  end.

Definition sign (s : bool) : string := if s then "-" else "".

(** [format(x, '.{prec}f')] for a float [x]. *)
Definition format_f (prec : nat) (x : float) : string :=
  match Prim2SF x with
  | S754_nan => "nan"
  | S754_infinity s => sign s ++ "inf"
  | S754_zero s => sign s ++ fixed prec 0
  | S754_finite s m e => sign s ++ fixed prec (scaled_round prec m e)
  end.

(** The rational [m * 2^e]. *)
Definition magnitude (m : positive) (e : Z) : Q :=
  if 0 <=? e then inject_Z (Z.pos m * 2 ^ e)
  else Z.pos m # (2 ^ Z.to_pos (- e))%positive.

(** The exact value of a finite float, as a rational. *)
Definition value (x : float) : option Q :=
  match Prim2SF x with
  | S754_zero _ => Some 0%Q
  | S754_finite s m e =>
      Some (if s then Qopp (magnitude m e) else magnitude m e)
  | _ => None
  end.

End Fmt.

(** ** Exceptions and traces *)

(** The exception classes the script meets.  [HTTPError], [ConnectionError]
    and [Timeout] are the classes of [requests.exceptions], each a
    [RequestException]; [SystemExit] is raised by [sys.exit]. *)
Inductive exn : Type :=
| ValueError (msg : string)
| TypeError (msg : string)
| AttributeError (msg : string)
| UnboundLocalError (msg : string)
| HTTPError (msg : string)
| ConnectionError (msg : string)
| TimeoutError (msg : string)
| RequestException (msg : string)
| SystemExit (code : Z).

(** [str(e)] *)
Definition str_exn (e : exn) : string :=
  match e with
  | ValueError m | TypeError m | AttributeError m | UnboundLocalError m
  | HTTPError m
  | ConnectionError m | TimeoutError m | RequestException m => m
  | SystemExit c => Py.str_int c
  end.

Inductive outcome (A : Type) : Type :=
| Returns (a : A)
| Raises (e : exn).
Arguments Returns {A} a.
Arguments Raises {A} e.

(** ** Dates and times *)

Module Datetime.

(** A [datetime]; [tzinfo] is the fixed offset from UTC in microseconds, or
    [None] for a naive value. *)
Record datetime : Type := mk_datetime {
  year : Z;
  month : Z;
  day : Z;
  hour : Z;
  minute : Z;
  second : Z;
  microsecond : Z;
  tzinfo : option Z
}.

Definition is_digit (c : ascii) : bool :=
  let n := nat_of_ascii c in ((48 <=? n) && (n <=? 57))%nat.

Definition digit_value (c : ascii) : Z := Z.of_nat (nat_of_ascii c) - 48.

(** [parse_digits]: exactly [n] decimal digits, and what follows them. *)
Fixpoint parse_digits_from (acc : Z) (n : nat) (s : string) : option (Z * string) :=
  match n with
  | O => Some (acc, s)
  | S n' =>
      match s with
      | String c s' =>
          if is_digit c then parse_digits_from (acc * 10 + digit_value c) n' s'
          else None
      | EmptyString => None
      end
  end.

Definition parse_digits (n : nat) (s : string) : option (Z * string) :=
  parse_digits_from 0 n s.

Definition expect (c : ascii) (s : string) : option string :=
  match s with
  | String d s' => if Ascii.eqb c d then Some s' else None
  | EmptyString => None
  end.

(** [parse_isoformat_date]: [YYYY-MM-DD], and what follows it. *)
Definition parse_isoformat_date (s : string) : option (Z * Z * Z * string) :=
  match parse_digits 4 s with
  | None => None
  | Some (y, s1) =>
    match expect "-" s1 with
    | None => None
    | Some s2 =>
      match parse_digits 2 s2 with
      | None => None
      | Some (m, s3) =>
        match expect "-" s3 with
        | None => None
        | Some s4 =>
          match parse_digits 2 s4 with
          | None => None
          | Some (d, rest) => Some (y, m, d, rest)
          end
        end
      end
    end
  end.

Definition not_nul (c : ascii) : bool := negb (Ascii.eqb c Ascii.zero).

(** The fraction [.fff] or [.ffffff] that ends a time: [part] must be three
    or six digits.  The flag tells whether the character after [part] is
    something other than the end of the string. *)
Definition parse_fraction (part : string) (next : option ascii)
  : option (Z * bool) :=
  let n := String.length part in
  if ((n =? 3) || (n =? 6))%nat then
    match parse_digits n part with
    | Some (v, _) =>
        Some (if (n =? 3)%nat then v * 1000 else v,
              match next with Some c => not_nul c | None => false end)
    | None => None
    end
  else None.

(** [parse_hh_mm_ss_ff] on the characters [part], followed in the string by
    [next] ([None] at the end of the string).  [left] counts the fields
    [HH], [MM], [SS] still to read; the fields read are returned in order,
    with the microseconds and the flag "not at the end of the string". *)
Fixpoint parse_fields (left : nat) (part : string) (next : option ascii)
  : option (list Z * Z * bool) :=
  match left with
  | O =>
      match parse_fraction part next with
      | Some (us, fl) => Some ([], us, fl)
      | None => None
      end
  | S left' =>
      match parse_digits 2 part with
      | None => None
      | Some (v, rest) =>
          match rest with
          | EmptyString =>
              Some ([v], 0, match next with Some c => not_nul c | None => false end)
          | String c EmptyString => Some ([v], 0, not_nul c)
          | String c more =>
              if Ascii.eqb c ":" then
                match parse_fields left' more next with
                | Some (vs, us, fl) => Some (v :: vs, us, fl)
                | None => None
                end
              else if Ascii.eqb c "." then
                match parse_fraction more next with
                | Some (us, fl) => Some ([v], us, fl)
                | None => None
                end
              else None
          end
      end
  end.

Definition parse_hh_mm_ss_ff (part : string) (next : option ascii)
  : option (Z * Z * Z * Z * bool) :=
  match parse_fields 3 part next with
  | Some (vs, us, fl) => Some (nth 0 vs 0, nth 1 vs 0, nth 2 vs 0, us, fl)
  | None => None
  end.

Definition is_sign (c : ascii) : bool := Ascii.eqb c "+" || Ascii.eqb c "-".

(** The time string cut at its first [+] or [-]. *)
Fixpoint split_at_sign (s : string) : string * string :=
  match s with
  | EmptyString => (EmptyString, EmptyString)
  | String c s' =>
      if is_sign c then (EmptyString, s)
      else let (a, b) := split_at_sign s' in (String c a, b)
  end.

(** [parse_isoformat_time]: hour, minute, second, microsecond, and the
    offset as seconds and microseconds when the string carries one. *)
Definition parse_isoformat_time (tstr : string)
  : option (Z * Z * Z * Z * option (Z * Z)) :=
  let (tpart, tzpart) := split_at_sign tstr in
  match tzpart with
  | EmptyString =>
      match parse_hh_mm_ss_ff tpart None with
      | Some (h, mi, s, us, false) => Some (h, mi, s, us, None)
      | _ => None
      end
  | String sg tzrest =>
      match parse_hh_mm_ss_ff tpart (Some sg) with
      | None => None
      | Some (h, mi, s, us, _) =>
          let tzlen := String.length tzpart in
          if ((tzlen =? 6) || (tzlen =? 9) || (tzlen =? 16))%nat then
            match parse_hh_mm_ss_ff tzrest None with
            | Some (tzh, tzm, tzs, tzus, false) =>
                let tzsign := if Ascii.eqb sg "-" then -1 else 1 in
                Some (h, mi, s, us,
                      Some (tzsign * (tzh * 3600 + tzm * 60 + tzs), tzsign * tzus))
            | _ => None
            end
          else None
      end
  end.

Definition is_leap (y : Z) : bool :=
  (y mod 4 =? 0) && (negb (y mod 100 =? 0) || (y mod 400 =? 0)).

Definition days_in_month (y m : Z) : Z :=
  if m =? 2 then (if is_leap y then 29 else 28)
  else if (m =? 4) || (m =? 6) || (m =? 9) || (m =? 11) then 30
  else 31.

Definition day_us : Z := 86400 * 1000000.

(** [repr] of the [timedelta] of [us] microseconds. *)
Definition repr_timedelta (us : Z) : string :=
  let d := us / day_us in
  let s := (us mod day_us) / 1000000 in
  let u := us mod 1000000 in
  let parts :=
    List.app (if d =? 0 then [] else ["days=" ++ Py.str_int d])
      (List.app (if s =? 0 then [] else ["seconds=" ++ Py.str_int s])
         (if u =? 0 then [] else ["microseconds=" ++ Py.str_int u])) in
  "datetime.timedelta(" ++
  match parts with
  | [] => "0"
  | _ => String.concat ", " parts
  end ++ ")".

(** The time zone of a parsed offset: UTC when the seconds are zero,
    otherwise a [timezone], whose offset must lie strictly within a day. *)
Definition tzinfo_from_isoformat_results (tz : option (Z * Z))
  : outcome (option Z) :=
  match tz with
  | None => Returns None
  | Some (tzoffset, tzus) =>
      if tzoffset =? 0 then Returns (Some 0)
      else
        let off := tzoffset * 1000000 + tzus in
        if (- day_us <? off) && (off <? day_us) then Returns (Some off)
        else Raises (ValueError
          ("offset must be a timedelta strictly between -timedelta(hours=24) and timedelta(hours=24), not "
           ++ repr_timedelta off ++ "."))
  end.

(** The range checks of the [datetime] constructor. *)
Definition new_datetime (y m d h mi s us : Z) (tz : option Z) : outcome datetime :=
  if negb ((1 <=? y) && (y <=? 9999)) then
    Raises (ValueError ("year " ++ Py.str_int y ++ " is out of range"))
  else if negb ((1 <=? m) && (m <=? 12)) then
    Raises (ValueError "month must be in 1..12")
  else if negb ((1 <=? d) && (d <=? days_in_month y m)) then
    Raises (ValueError "day is out of range for month")
  else if negb ((0 <=? h) && (h <=? 23)) then
    Raises (ValueError "hour must be in 0..23")
  else if negb ((0 <=? mi) && (mi <=? 59)) then
    Raises (ValueError "minute must be in 0..59")
  else if negb ((0 <=? s) && (s <=? 59)) then
    Raises (ValueError "second must be in 0..59")
  else if negb ((0 <=? us) && (us <=? 999999)) then
    Raises (ValueError "microsecond must be in 0..999999")
  else Returns (mk_datetime y m d h mi s us tz).

Definition invalid_isoformat (s : string) : exn :=
  ValueError ("Invalid isoformat string: " ++ Py.repr s).

(** [datetime.fromisoformat(date_string)]:
    [YYYY-MM-DD[*HH[:MM[:SS[.fff[fff]]]][+HH:MM[:SS[.ffffff]]]]], where [*]
    is any one character. *)
Definition fromisoformat (date_string : string) : outcome datetime :=
  match parse_isoformat_date date_string with
  | None => Raises (invalid_isoformat date_string)
  | Some (y, m, d, rest) =>
      match rest with
      | EmptyString => new_datetime y m d 0 0 0 0 None
      | String _ tstr =>
          match parse_isoformat_time tstr with
          | None => Raises (invalid_isoformat date_string)
          | Some (h, mi, s, us, tz) =>
              match tzinfo_from_isoformat_results tz with
              | Raises e => Raises e
              | Returns tzi => new_datetime y m d h mi s us tzi
              end
          end
      end
  end.

Definition month_name (m : Z) : string :=
  nth (Z.to_nat (m - 1))
    ["January"; "February"; "March"; "April"; "May"; "June"; "July";
     "August"; "September"; "October"; "November"; "December"] "".

(** [tzname()]: empty for a naive value, [UTC] for a zero offset, otherwise
    [UTC+HH:MM], with seconds and microseconds when they are not zero. *)
Definition tzname (tz : option Z) : string :=
  match tz with
  | None => ""
  | Some off =>
      if off =? 0 then "UTC"
      else
        let sg := if off <? 0 then "-" else "+" in
        let a := Z.abs off in
        let hours := a / 3600000000 in
        let minutes := (a mod 3600000000) / 60000000 in
        let seconds := (a mod 60000000) / 1000000 in
        let micro := a mod 1000000 in
        "UTC" ++ sg ++ Py.fmt_0d 2 hours ++ ":" ++ Py.fmt_0d 2 minutes ++
        (if micro =? 0 then
           (if seconds =? 0 then "" else ":" ++ Py.fmt_0d 2 seconds)
         else ":" ++ Py.fmt_0d 2 seconds ++ "." ++ Py.fmt_0d 6 micro)
  end.

(** One directive of [strftime], among those the script uses. *)
Definition directive (c : ascii) (dt : datetime) : string :=
  if Ascii.eqb c "B" then month_name (month dt)
  else if Ascii.eqb c "d" then Py.fmt_0d 2 (day dt)
  else if Ascii.eqb c "m" then Py.fmt_0d 2 (month dt)
  else if Ascii.eqb c "Y" then Py.fmt_0d 4 (year dt)
  else if Ascii.eqb c "I" then
    Py.fmt_0d 2 (if hour dt mod 12 =? 0 then 12 else hour dt mod 12)
  else if Ascii.eqb c "M" then Py.fmt_0d 2 (minute dt)
  else if Ascii.eqb c "S" then Py.fmt_0d 2 (second dt)
  else if Ascii.eqb c "p" then (if hour dt <? 12 then "AM" else "PM")
  else if Ascii.eqb c "Z" then tzname (tzinfo dt)
  else if Ascii.eqb c "%" then "%"
  else String "%" (String c EmptyString).

(** [dt.strftime(fmt)].  The year is written with four digits, as the
    library documents [%Y]; some C libraries omit the leading zeros of a year
    below 1000. *)
Fixpoint strftime (fmt : string) (dt : datetime) : string :=
  match fmt with
  | EmptyString => EmptyString
  | String "%" (String c rest) => directive c dt ++ strftime rest dt
  | String c rest => String c (strftime rest dt)
  end.

End Datetime.

(** ** The trace monad *)

(** What the script does to the outside world, in order. *)
Inductive event : Type :=
| ConsoleRule (title : string)
| PromptAsk (question : string) (default : option string)
| Print (text : string)
| ConsoleStatus (text : string)
| PrintPanel (content title subtitle : string)
| PrintTraceback
| HttpGet (url : string).

Definition M (A : Type) : Type := (list event * outcome A)%type.

Definition ret {A : Type} (a : A) : M A := ([], Returns a).

Definition bind {A B : Type} (m : M A) (f : A -> M B) : M B :=
  match m with
  | (t, Returns a) => let (t', r) := f a in (List.app t t', r)
  | (t, Raises e) => (t, Raises e)
  end.

Definition emit (ev : event) : M unit := ([ev], Returns tt).

Definition raise {A : Type} (e : exn) : M A := ([], Raises e).

Definition lift {A : Type} (o : outcome A) : M A := ([], o).

(** [try: m except ...]: the handler answers [None] for an exception no
    clause catches. *)
Definition try_except {A : Type} (m : M A) (h : exn -> option (M A)) : M A :=
  match m with
  | (t, Raises e) =>
      match h e with
      | Some k => let (t', r) := k in (List.app t t', r)
      | None => m
      end
  | _ => m
  end.

Declare Scope monad_scope.
Delimit Scope monad_scope with monad.
Notation "x <- m ;; k" := (bind m (fun x => k))
  (at level 61, m at next level, right associativity) : monad_scope.
Notation "m ;; k" := (bind m (fun _ => k))
  (at level 61, right associativity) : monad_scope.
Local Open Scope monad_scope.

(** [rich.print] and [console.print] *)
Definition rprint (text : string) : M unit := emit (Print text).

(** ** The provider's documents and answers *)

Module Json.

(** A key of a JSON object: missing, [null], or holding a value. *)
Inductive field (A : Type) : Type :=
| Absent
| Null
| Val (a : A).
Arguments Absent {A}.
Arguments Null {A}.
Arguments Val {A} a.

(** [d.get(key)] *)
Definition get {A : Type} (f : field A) : option A :=
  match f with
  | Val a => Some a
  | _ => None
  end.

(** [d.get(key, default)]: the default stands for a missing key only. *)
Definition get_default {A : Type} (f : field A) (default : A) : option A :=
  match f with
  | Absent => Some default
  | Null => None
  | Val a => Some a
  end.

(** [o.get(...)] on a value [o] that may be [None]. *)
Definition method_get {A B : Type} (o : option A) (k : A -> option B) : M (option B) :=
  match o with
  | Some d => ret (k d)
  | None => raise (AttributeError "'NoneType' object has no attribute 'get'")
  end.

(** An object with the key [usd] holding a number. *)
Record usd_price : Type := mk_usd_price { price_usd : field float }.

(** An object with the key [usd] holding a date string. *)
Record usd_date : Type := mk_usd_date { date_usd : field string }.

End Json.
Import Json.

(** The answer of [/coins/solana/contract/{address}]. *)
Module Coin.

Record market : Type := mk_market {
  ath : field usd_price;
  ath_date : field usd_date
}.

Record t : Type := mk {
  name : field string;
  symbol : field string;
  genesis_date : field string;
  id : field string;
  market_data : field market
}.

(** The empty object, [{}]. *)
Definition no_price : usd_price := mk_usd_price Absent.
Definition no_date : usd_date := mk_usd_date Absent.
Definition no_market : market := mk_market Absent Absent.

(** The number at [market_data.ath.usd], when the document has one. *)
Definition ath_price (j : t) : option float :=
  match market_data j with
  | Val md =>
      match ath md with
      | Val a => get (price_usd a)
      | _ => None
      end
  | _ => None
  end.

(** The string at [market_data.ath_date.usd], when the document has one. *)
Definition ath_timestamp (j : t) : option string :=
  match market_data j with
  | Val md =>
      match ath_date md with
      | Val d => get (date_usd d)
      | _ => None
      end
  | _ => None
  end.

(** One of the objects on the way to the two [usd] keys is [null]. *)
Definition null_object (j : t) : bool :=
  match market_data j with
  | Null => true
  | Absent => false
  | Val md =>
      match ath md, ath_date md with
      | Null, _ | _, Null => true
      | _, _ => false
      end
  end.

End Coin.

(** The answer of [/coins/{id}/history?date=...]. *)
Module History.

Record market : Type := mk_market { current_price : field usd_price }.

Record t : Type := mk { market_data : field market }.

Definition no_market : market := mk_market Absent.


End History.

Module Http.

(** The body of a response, as [response.json()] reads it. *)
Inductive decoded (B : Type) : Type :=
| Document (j : B)
| NotJson (msg : string).
Arguments Document {B} j.
Arguments NotJson {B} msg.

Record response (B : Type) : Type := mk_response {
  status_code : Z;
  reason : string;
  url : string;
  text : string;
  json : decoded B
}.
Arguments mk_response {B}.
Arguments status_code {B}.
Arguments reason {B}.
Arguments url {B}.
Arguments text {B}.
Arguments json {B}.

(** What [requests.get] does: a response, or one of its exceptions. *)
Inductive reply (B : Type) : Type :=
| Response (r : response B)
| ConnectionFailed (msg : string)
| TimedOut (msg : string)
| RequestFailed (msg : string).
Arguments Response {B} r.
Arguments ConnectionFailed {B} msg.
Arguments TimedOut {B} msg.
Arguments RequestFailed {B} msg.

(** [requests.get(url, headers=headers, timeout=15)] against a provider
    [net]. *)
Definition requests_get {B : Type} (net : string -> reply B) (u : string)
  : M (response B) :=
  emit (HttpGet u) ;;
  match net u with
  | Response r => ret r
  | ConnectionFailed m => raise (ConnectionError m)
  | TimedOut m => raise (TimeoutError m)
  | RequestFailed m => raise (RequestException m)
  end.

(** [response.raise_for_status()] *)
Definition raise_for_status {B : Type} (r : response B) : M unit :=
  if (400 <=? status_code r) && (status_code r <? 500) then
    raise (HTTPError (Py.str_int (status_code r) ++ " Client Error: " ++
                      reason r ++ " for url: " ++ url r))
  else if (500 <=? status_code r) && (status_code r <? 600) then
    raise (HTTPError (Py.str_int (status_code r) ++ " Server Error: " ++
                      reason r ++ " for url: " ++ url r))
  else ret tt.

(** [response.json()]; a body that is not JSON raises the library's
    [JSONDecodeError], a [RequestException]. *)
Definition response_json {B : Type} (r : response B) : M B :=
  match json r with
  | Document j => ret j
  | NotJson m => raise (RequestException m)
  end.

(** The statuses [raise_for_status] lets through. *)
Definition is_error {B : Type} (r : response B) : bool :=
  (400 <=? status_code r) && (status_code r <? 600).

End Http.
Import Http.

(** ** The script *)

Import Datetime.

(** The dictionary [get_token_data] returns. *)
Record token_data : Type := mk_token_data {
  name : option string;
  symbol : string;
  ath_usd : option float;
  ath_date : string;
  genesis_date : string;
  contract_address : string;
  coin_id : option string
}.

(** Helper function to parse and format ISO date strings from CoinGecko. *)
Definition format_datetime (date_string : option string) : M string :=
  match date_string with
  | None => ret "N/A"
  | Some s =>
      if negb (Py.truthy s) then ret "N/A"
      else
        let date_string :=
          if Py.endswith s "Z" then Py.drop_last s ++ "+00:00" else s in
        try_except
          (dt_object <- lift (fromisoformat (Py.replace date_string "Z" "+00:00")) ;;
           ret (strftime "%B %d, %Y at %I:%M:%S %p %Z" dt_object))
          (fun e =>
             match e with
             | ValueError _ =>
                 Some (rprint ("[yellow]Warning:[/yellow] Could not parse date: " ++
                               date_string ++ ". Error: " ++ str_exn e) ;;
                       ret date_string)
             | SystemExit _ => None
             | _ =>
                 Some (rprint ("[yellow]Warning:[/yellow] Error formatting date '" ++
                               date_string ++ "': " ++ str_exn e) ;;
                       ret "Error formatting date")
             end)
  end.

(** The local variable [response] of the two fetching functions, as an
    [except] clause reads it: bound once [requests.get] has returned. *)
Definition read_response {B : Type} (response : option (response B))
  : M (Http.response B) :=
  match response with
  | Some r => ret r
  | None => raise (UnboundLocalError
                     "local variable 'response' referenced before assignment")
  end.

Definition bound_response {B : Type} (net : string -> reply B) (url : string)
  : option (response B) :=
  match net url with
  | Response r => Some r
  | _ => None
  end.

(** Fetches token data from CoinGecko API. *)
Definition get_token_data (net : string -> reply Coin.t) (contract_address : string)
  : M (option token_data) :=
  let url := "https://api.coingecko.com/api/v3/coins/solana/contract/" ++
             contract_address in
  try_except
    (response <- requests_get net url ;;
     raise_for_status response ;;
     data <- response_json response ;;
     let name := get_default (Coin.name data) "N/A" in
     let symbol := get_default (Coin.symbol data) "N/A" in
     let genesis_date_str := get (Coin.genesis_date data) in
     let coin_id := get (Coin.id data) in
     let market_data := get_default (Coin.market_data data) Coin.no_market in
     ath_data <- method_get market_data (fun d => get_default (Coin.ath d) Coin.no_price) ;;
     ath_date_data <- method_get market_data (fun d => get_default (Coin.ath_date d) Coin.no_date) ;;
     ath_usd <- method_get ath_data (fun d => get (price_usd d)) ;;
     ath_date_str <- method_get ath_date_data (fun d => get (date_usd d)) ;;
     formatted_ath_date <- format_datetime ath_date_str ;;
     formatted_genesis_date <- format_datetime genesis_date_str ;;
     match ath_usd with
     | None =>
         rprint ("[bold yellow]Warning:[/bold yellow] ATH price data not found for " ++
                 Py.str_opt name ++ " (" ++ Py.str_opt symbol ++ ").") ;;
         ret None
     | Some _ =>
         ret (Some {|
           name := name;
           symbol := match symbol with
                     | Some s => if Py.truthy s then Py.upper s else "N/A"
                     | None => "N/A"
                     end;
           ath_usd := ath_usd;
           ath_date := formatted_ath_date;
           genesis_date := formatted_genesis_date;
           contract_address := contract_address;
           coin_id := coin_id |})
     end)
    (fun e =>
       match e with
       | HTTPError _ =>
           Some (response <- read_response (bound_response net url) ;;
                 (if status_code response =? 404 then
                    rprint ("[bold red]Error:[/bold red] Coin not found on CoinGecko (404). Please check the contract address: [cyan]" ++
                            contract_address ++ "[/cyan]")
                  else
                    rprint ("[bold red]HTTP Error:[/bold red] " ++ str_exn e ++
                            " - " ++ text response)) ;;
                 ret None)
       | ConnectionError _ =>
           Some (rprint ("[bold red]Network Error:[/bold red] Could not connect to CoinGecko. " ++
                         str_exn e) ;;
                 ret None)
       | TimeoutError _ =>
           Some (rprint ("[bold red]Error:[/bold red] Request timed out connecting to CoinGecko. " ++
                         str_exn e) ;;
                 ret None)
       | RequestException _ =>
           Some (rprint ("[bold red]Error:[/bold red] An error occurred during the request: " ++
                         str_exn e) ;;
                 ret None)
       | SystemExit _ => None
       | _ =>
           Some (rprint ("[bold red]An unexpected error occurred:[/bold red] " ++
                         str_exn e) ;;
                 emit PrintTraceback ;;
                 ret None)
       end).

(** Fetches historical price data for a specific date from CoinGecko. *)
Definition get_historical_price (net : string -> reply History.t)
    (coin_id : option string) (date_str : string) : M (option float) :=
  match fromisoformat (Py.replace date_str "Z" "+00:00") with
  | Raises (ValueError _) =>
      rprint ("[bold red]Error:[/bold red] Invalid date format: " ++ date_str ++
              ". Please use YYYY-MM-DD HH:MM:SS format.") ;;
      ret None
  | Raises e => raise e
  | Returns dt =>
      let formatted_date := strftime "%d-%m-%Y" dt in
      let url := "https://api.coingecko.com/api/v3/coins/" ++ Py.str_opt coin_id ++
                 "/history?date=" ++ formatted_date in
      try_except
        (response <- requests_get net url ;;
         raise_for_status response ;;
         data <- response_json response ;;
         let market_data := get_default (History.market_data data) History.no_market in
         current_price <- method_get market_data
                            (fun d => get_default (History.current_price d) Coin.no_price) ;;
         price_usd <- method_get current_price (fun d => get (price_usd d)) ;;
         match price_usd with
         | None =>
             rprint ("[bold yellow]Warning:[/bold yellow] No price data available for " ++
                     Py.str_opt coin_id ++ " on " ++ formatted_date ++ ".") ;;
             ret None
         | Some p => ret (Some p)
         end)
        (fun e =>
           match e with
           | HTTPError _ =>
               Some (response <- read_response (bound_response net url) ;;
                     rprint ("[bold red]HTTP Error:[/bold red] " ++ str_exn e ++
                             " - " ++ text response) ;;
                     ret None)
           | ConnectionError _ =>
               Some (rprint ("[bold red]Network Error:[/bold red] Could not connect to CoinGecko. " ++
                             str_exn e) ;;
                     ret None)
           | TimeoutError _ =>
               Some (rprint ("[bold red]Error:[/bold red] Request timed out connecting to CoinGecko. " ++
                             str_exn e) ;;
                     ret None)
           | RequestException _ =>
               Some (rprint ("[bold red]Error:[/bold red] An error occurred during the request: " ++
                             str_exn e) ;;
                     ret None)
           | SystemExit _ => None
           | _ =>
               Some (rprint ("[bold red]An unexpected error occurred:[/bold red] " ++
                             str_exn e) ;;
                     ret None)
           end)
  end.

(** Calculates the return percentage from historical price to ATH.  The
    all-time high is the dictionary's entry, which may be [None]; the division
    is then a [TypeError]. *)
Definition calculate_return_percentage (ath_price : option float)
    (historical_price : float) : M (option float) :=
  if PrimFloat.eqb historical_price 0%float then
    rprint "[bold red]Error:[/bold red] Historical price is zero, cannot calculate return." ;;
    ret None
  else
    match ath_price with
    | Some ath_price =>
        ret (Some (((ath_price / historical_price) - 1) * 100)%float)
    | None =>
        raise (TypeError "unsupported operand type(s) for /: 'NoneType' and 'float'")
    end.

(** The text [display_results] puts in its panel ([content]). *)
Definition report_content (token_data : token_data)
    (historical_price return_percentage : option float)
    (input_date : option string) : string :=
  let ath_price_str :=
    match ath_usd token_data with
    | Some p => "$" ++ Fmt.format_f 8 p
    | None => "[yellow]N/A[/yellow]"
    end in
  let content :=
    "[bold]Name:[/bold] " ++ Py.str_opt (name token_data) ++ Py.nl ++
    "[bold]Symbol:[/bold] " ++ symbol token_data ++ Py.nl ++
    "[bold]Contract Address:[/bold] [cyan]" ++ contract_address token_data ++
    "[/cyan]" ++ Py.nl ++
    "--------------------" ++ Py.nl ++
    "[bold]ATH Price (USD):[/bold] [green]" ++ ath_price_str ++ "[/green]" ++ Py.nl ++
    "[bold]ATH Date:[/bold] " ++ ath_date token_data ++ Py.nl ++
    "--------------------" ++ Py.nl ++
    "[bold]CoinGecko Listing Date:[/bold] " ++ genesis_date token_data ++
    " [italic](Note: Not blockchain creation date)[/italic]" in
  match historical_price, input_date with
  | Some historical_price, Some input_date =>
      if Py.truthy input_date then
        content ++
        (Py.nl ++ "--------------------" ++ Py.nl ++
         "[bold]Historical Price (USD) on " ++ input_date ++ ":[/bold] [green]$" ++
         Fmt.format_f 8 historical_price ++ "[/green]") ++
        match return_percentage with
        | Some return_percentage =>
            Py.nl ++ "[bold]Return from " ++ input_date ++ " to ATH:[/bold] [green]" ++
            Fmt.format_f 2 return_percentage ++ "%[/green]"
        | None => ""
        end
      else content
  | _, _ => content
  end.

(** Displays the fetched token data and historical price info in a rich
    Panel. *)
Definition display_results (token_data : option token_data)
    (historical_price return_percentage : option float)
    (input_date : option string) : M unit :=
  match token_data with
  | None =>
      rprint "[bold red]Failed to retrieve token data.[/bold red] Cannot display results."
  | Some token_data =>
      emit (ConsoleRule "[bold blue]Results[/bold blue]") ;;
      emit (PrintPanel
              (report_content token_data historical_price return_percentage input_date)
              ("Token Information: " ++ Py.str_opt (name token_data))
              "Data from CoinGecko")
  end.

(** [Prompt.ask(question, default=default)]: the default for an empty line,
    otherwise the line the user typed, stripped of surrounding blanks. *)
Definition Prompt_ask (question : string) (default : option string)
    (typed : string) : M string :=
  emit (PromptAsk question default) ;;
  match typed, default with
  | EmptyString, Some d => ret d
  | _, _ => ret (Py.strip typed)
  end.

(** [sys.exit(code)] *)
Definition sys_exit {A : Type} (code : Z) : M A := raise (SystemExit code).

(** What the script meets when it runs: the two lines the user types and
    the provider behind the two endpoints. *)
Record world : Type := mk_world {
  typed_address : string;
  typed_date : string;
  contract_endpoint : string -> reply Coin.t;
  history_endpoint : string -> reply History.t
}.

(** The body run under [if __name__ == "__main__"]. *)
Definition main (w : world) : M unit :=
  emit (ConsoleRule "[bold magenta]Solana Token ATH Checker[/bold magenta]") ;;
  contract_address <- Prompt_ask "[bold]Enter the Solana Contract Address[/bold]"
                        None (typed_address w) ;;
  if negb (Py.truthy contract_address) || (Py.len contract_address <? 32)
     || (45 <? Py.len contract_address)
  then
    rprint "[bold red]Error:[/bold red] Invalid contract address format entered." ;;
    sys_exit 1
  else
    let contract_address := Py.lower (Py.strip contract_address) in
    rprint (Py.nl ++ "[grey50]Fetching data for address:[/grey50] [cyan]" ++
            contract_address ++ "[/cyan]") ;;
    emit (ConsoleStatus "[bold green]Calling CoinGecko API...") ;;
    token_data <- get_token_data (contract_endpoint w) contract_address ;;
    match token_data with
    | Some td =>
        display_results (Some td) None None None ;;
        date_input <- Prompt_ask
          "[bold]Enter a date and time to check historical price (YYYY-MM-DD HH:MM:SS)[/bold]"
          (Some "2023-01-01 00:00:00") (typed_date w) ;;
        try_except
          (lift (fromisoformat (Py.replace date_input " " "T")) ;;
           emit (ConsoleStatus "[bold green]Fetching historical price...") ;;
           historical_price <- get_historical_price (history_endpoint w)
                                 (coin_id td) date_input ;;
           match historical_price with
           | Some hp =>
               return_percentage <- calculate_return_percentage (ath_usd td) hp ;;
               display_results (Some td) (Some hp) return_percentage (Some date_input)
           | None => rprint "[yellow]Could not fetch historical price data.[/yellow]"
           end)
          (fun e =>
             match e with
             | ValueError _ =>
                 Some (rprint "[bold red]Error:[/bold red] Invalid date format. Please use YYYY-MM-DD HH:MM:SS.")
             | _ => None
             end)
    | None =>
        rprint (Py.nl ++ "[yellow]Could not display results due to errors during data fetching.[/yellow]")
    end ;;
    rprint (Py.nl ++ "[grey50]Script finished.[/grey50]").

(** The status the process ends with: 0 when [main] runs to its end, the
    argument of [sys.exit], and 1 for any other exception that escapes. *)
Definition exit_code (r : M unit) : Z :=
  match snd r with
  | Returns _ => 0
  | Raises (SystemExit c) => c
  | Raises _ => 1
  end.

(** The requests the script sent. *)
Fixpoint requests_of (t : list event) : list string :=
  match t with
  | [] => []
  | HttpGet u :: t' => u :: requests_of t'
  | _ :: t' => requests_of t'
  end.

(** The questions the script asked. *)
Fixpoint prompts_of (t : list event) : list string :=
  match t with
  | [] => []
  | PromptAsk q _ :: t' => q :: prompts_of t'
  | _ :: t' => prompts_of t'
  end.


(** The record the function builds from a document. *)
Definition extracted (j : Coin.t) (contract_address : string) (p : float)
    (formatted_ath_date formatted_genesis_date : string) : token_data :=
  {| name := get_default (Coin.name j) "N/A";
     symbol := match get_default (Coin.symbol j) "N/A" with
               | Some s => if Py.truthy s then Py.upper s else "N/A"
               | None => "N/A"
               end;
     ath_usd := Some p;
     ath_date := formatted_ath_date;
     genesis_date := formatted_genesis_date;
     contract_address := contract_address;
     coin_id := get (Coin.id j) |}.

(** The two request addresses. *)
Definition contract_url (contract_address : string) : string :=
  "https://api.coingecko.com/api/v3/coins/solana/contract/" ++ contract_address.

Definition history_url (coin_id : option string) (dt : datetime) : string :=
  "https://api.coingecko.com/api/v3/coins/" ++ Py.str_opt coin_id ++
  "/history?date=" ++ Py.fmt_0d 2 (day dt) ++ "-" ++ Py.fmt_0d 2 (month dt) ++
  "-" ++ Py.fmt_0d 4 (year dt).



(** The rewriting [main] applies to the date before it checks it: each
    blank becomes a [T]. *)
Definition blank_to_T (c : ascii) : ascii :=
  if Ascii.eqb c " " then "T"%char else c.











(** [needle] is a piece of [text]. *)
Definition occurs_in (needle text : string) : Prop :=
  exists before after, text = before ++ needle ++ after.

(** ** Reading a displayed price back *)

(** The text before the first point, and the text after it. *)
Fixpoint cut_at_point (s : string) : string * string :=
  match s with
  | EmptyString => (EmptyString, EmptyString)
  | String c s' =>
      if Ascii.eqb c "." then (EmptyString, s')
      else let (a, b) := cut_at_point s' in (String c a, b)
  end.

(** A run of decimal digits as the number it writes, after [acc]. *)
Fixpoint read_digits (acc : Z) (s : string) : option Z :=
  match s with
  | EmptyString => Some acc
  | String c s' =>
      if Datetime.is_digit c then read_digits (acc * 10 + Datetime.digit_value c) s'
      else None
  end.

(** An unsigned decimal numeral, digits.digits, as the number it denotes. *)
Definition parse_unsigned (mag : string) : option Q :=
  let (ip, fp) := cut_at_point mag in
  match ip with
  | EmptyString => None
  | _ =>
      match read_digits 0 ip, read_digits 0 fp with
      | Some i, Some f =>
          Some (inject_Z i +
                inject_Z f / inject_Z (10 ^ Z.of_nat (String.length fp)))%Q
      | _, _ => None
      end
  end.

(** A decimal numeral with an optional minus sign. *)
Definition parse_decimal (s : string) : option Q :=
  match s with
  | String c m =>
      if Ascii.eqb c "-" then option_map Qopp (parse_unsigned m)
      else parse_unsigned s
  | EmptyString => None
  end.

(** The reading side of the round trip: the price shown as [$...] in the
    report, read back as a decimal number. *)
Definition reparse_price (shown : string) : option Q :=
  match shown with
  | String "$" body => parse_decimal body
  | _ => None
  end.

(** The price as [display_results] shows it. *)
Definition shown_price (p : float) : string := "$" ++ Fmt.format_f 8 p.

(** A computation that comes back with a value. *)
Definition returns {A : Type} (m : M A) : Prop :=
  exists t a, m = (t, Returns a).

(** ** Sample data

    A provider with one listed token, used to run the script on concrete
    input. *)
Module Sample.

Definition address : string := "So11111111111111111111111111111111111111112".

Definition coin : Coin.t :=
  Coin.mk (Val "Wrapped SOL") (Val "sol") Absent (Val "wrapped-solana")
    (Val (Coin.mk_market
            (Val (mk_usd_price (Val 2.5%float)))
            (Val (mk_usd_date (Val "2021-11-04T00:00:00.000Z"))))).


Definition history : History.t :=
  History.mk (Val (History.mk_market (Val (mk_usd_price (Val 0.5%float))))).

Definition ok {B : Type} (u : string) (j : B) : reply B :=
  Response (mk_response 200 "OK" u "{}" (Document j)).

Definition contract_provider (u : string) : reply Coin.t := ok u coin.


Definition history_provider (u : string) : reply History.t := ok u history.



(** The record [get_token_data] builds from [coin]. *)
Definition record : token_data :=
  {| name := Some "Wrapped SOL";
     symbol := "SOL";
     ath_usd := Some 2.5%float;
     ath_date := "November 04, 2021 at 12:00:00 AM UTC";
     genesis_date := "N/A";
     contract_address := address;
     coin_id := Some "wrapped-solana" |}.

(** A run in which the user types the address and accepts the default
    date. *)
Definition run : world :=
  mk_world address "" contract_provider history_provider.

(** A run in which the user types a short address. *)
Definition short_run : world :=
  mk_world "So111" "" contract_provider history_provider.

End Sample.

(** * Properties *)

(** ** The trace monad *)

Lemma bind_returns {A B : Type} (t : list event) (a : A) (f : A -> M B) :
  bind (t, Returns a) f = (List.app t (fst (f a)), snd (f a)).
Proof. unfold bind. destruct (f a); reflexivity. Qed.

Lemma bind_raises {A B : Type} (t : list event) (e : exn) (f : A -> M B) :
  bind (t, Raises e) f = (t, Raises e).
Proof. reflexivity. Qed.

Lemma bind_ret {A B : Type} (a : A) (f : A -> M B) : bind (ret a) f = f a.
Proof. unfold ret, bind. destruct (f a); reflexivity. Qed.

Lemma bind_emit {B : Type} (ev : event) (f : unit -> M B) :
  bind (emit ev) f = (ev :: fst (f tt), snd (f tt)).
Proof. unfold emit, bind. destruct (f tt); reflexivity. Qed.

Lemma bind_assoc {A B C : Type} (m : M A) (f : A -> M B) (g : B -> M C) :
  bind (bind m f) g = bind m (fun a => bind (f a) g).
Proof.
  destruct m as [t [a | e]]; simpl; [| reflexivity].
  destruct (f a) as [t1 [b | e1]]; simpl; [| reflexivity].
  destruct (g b) as [t2 r]. now rewrite app_assoc.
Qed.


Lemma returns_ret {A : Type} (a : A) : returns (ret a).
Proof. now exists [], a. Qed.


(** ** calculate_return_percentage *)

(** C1.  For every all-time high and historical price the function returns
    [(ath / historical - 1) * 100] when the historical price is not zero; it
    fails (returns [None] after its error message) exactly when the
    historical price equals zero; on 2.5 and 0.5 it returns 400.0, and on a
    zero historical price it fails whatever the first argument. *)
Theorem C1_calculate_return_percentage :
  (forall a h : float,
      PrimFloat.eqb h 0%float = false ->
      calculate_return_percentage (Some a) h =
        ([], Returns (Some ((a / h - 1) * 100)%float))) /\
  (forall a h : float,
      snd (calculate_return_percentage (Some a) h) = Returns None <->
      PrimFloat.eqb h 0%float = true) /\
  calculate_return_percentage (Some 2.5%float) 0.5%float =
    ([], Returns (Some 400%float)) /\
  (forall x : option float,
      calculate_return_percentage x 0%float =
        ([Print "[bold red]Error:[/bold red] Historical price is zero, cannot calculate return."],
         Returns None)).
Proof.
  split; [| split; [| split]].
  - intros a h Hh. unfold calculate_return_percentage. now rewrite Hh.
  - intros a h. unfold calculate_return_percentage.
    destruct (PrimFloat.eqb h 0%float); split; simpl; congruence.
  - vm_compute. reflexivity.
  - intros x. reflexivity.
Qed.

(** ** Strings *)

Lemma append_nil_r (s : string) : s ++ "" = s.
Proof. induction s as [| c s IH]; simpl; [reflexivity | now rewrite IH]. Qed.


Lemma length_append (a b : string) :
  String.length (a ++ b) = (String.length a + String.length b)%nat.
Proof. induction a as [| x a IH]; simpl; [reflexivity | now rewrite IH]. Qed.

Lemma occurs_in_middle (before needle after : string) :
  occurs_in needle (before ++ needle ++ after).
Proof. now exists before, after. Qed.


(** ** Traces *)



(** ** Dates *)

Lemma new_datetime_raises_ValueError y m d h mi s us tz e :
  new_datetime y m d h mi s us tz = Raises e -> exists msg, e = ValueError msg.
Proof.
  unfold new_datetime.
  repeat match goal with
         | |- context [if ?b then _ else _] => destruct b
         end; intros H; inversion H; eauto.
Qed.

Lemma fromisoformat_raises_ValueError (s : string) (e : exn) :
  fromisoformat s = Raises e -> exists msg, e = ValueError msg.
Proof.
  unfold fromisoformat, invalid_isoformat.
  destruct (parse_isoformat_date s) as [[[[y m] d] rest] |].
  2: { intros H; inversion H; eauto. }
  destruct rest as [| c tstr].
  { apply new_datetime_raises_ValueError. }
  destruct (parse_isoformat_time tstr) as [[[[[h mi] sec] us] tz] |].
  2: { intros H; inversion H; eauto. }
  destruct (tzinfo_from_isoformat_results tz) as [tzi | e'] eqn:Etz.
  { apply new_datetime_raises_ValueError. }
  intros H; inversion H; subst e'. clear H.
  unfold tzinfo_from_isoformat_results in Etz.
  destruct tz as [[off tzus] |]; [| discriminate].
  destruct (off =? 0); [discriminate |].
  match type of Etz with
  | (if ?b then _ else _) = _ => destruct b
  end; inversion Etz; eauto.
Qed.

Lemma strftime_day_month_year (dt : datetime) :
  strftime "%d-%m-%Y" dt =
  Py.fmt_0d 2 (day dt) ++ "-" ++ Py.fmt_0d 2 (month dt) ++ "-" ++ Py.fmt_0d 4 (year dt).
Proof.
  cbn [strftime directive Ascii.eqb Bool.eqb append].
  now rewrite append_nil_r.
Qed.

Lemma strftime_report (dt : datetime) :
  strftime "%B %d, %Y at %I:%M:%S %p %Z" dt =
  month_name (month dt) ++ " " ++ Py.fmt_0d 2 (day dt) ++ ", " ++
  Py.fmt_0d 4 (year dt) ++ " at " ++
  Py.fmt_0d 2 (if hour dt mod 12 =? 0 then 12 else hour dt mod 12) ++ ":" ++
  Py.fmt_0d 2 (minute dt) ++ ":" ++ Py.fmt_0d 2 (second dt) ++ " " ++
  (if hour dt <? 12 then "AM" else "PM") ++ " " ++ tzname (tzinfo dt).
Proof.
  cbn [strftime directive Ascii.eqb Bool.eqb append].
  now rewrite append_nil_r.
Qed.

(** ** format_datetime *)

Lemma format_datetime_None : format_datetime None = ([], Returns "N/A").
Proof. reflexivity. Qed.

(** The function always comes back with a string, and sends and asks
    nothing on the way. *)
Lemma format_datetime_returns (d : option string) :
  exists t s,
    format_datetime d = (t, Returns s) /\ requests_of t = [] /\ prompts_of t = [].
Proof.
  destruct d as [s |]; [| now exists [], "N/A"].
  unfold format_datetime.
  destruct (negb (Py.truthy s)); [now exists [], "N/A" |].
  set (ds := if Py.endswith s "Z" then _ else s).
  destruct (fromisoformat (Py.replace ds "Z" "+00:00")) as [dt | e] eqn:E.
  - cbn. eexists _, _. repeat split.
  - destruct (fromisoformat_raises_ValueError _ _ E) as [msg ->].
    cbn. eexists _, _. repeat split.
Qed.


(** C9.  On the unparsable date [2021-02-30T00:00:00Z] the function does not
    raise, but what it returns, and what the report then shows, is not the
    string it was given: the trailing [Z] has been rewritten to [+00:00]. *)
Theorem C9_format_datetime_trailing_Z :
  fromisoformat (Py.replace "2021-02-30T00:00:00Z" "Z" "+00:00") =
    Raises (ValueError "day is out of range for month") /\
  format_datetime (Some "2021-02-30T00:00:00Z") =
    ([Print "[yellow]Warning:[/yellow] Could not parse date: 2021-02-30T00:00:00+00:00. Error: day is out of range for month"],
     Returns "2021-02-30T00:00:00+00:00") /\
  "2021-02-30T00:00:00+00:00" <> "2021-02-30T00:00:00Z".
Proof.
  split; [| split].
  - vm_compute. reflexivity.
  - vm_compute. reflexivity.
  - discriminate.
Qed.

(** ** get_historical_price *)

Lemma raise_for_status_ok {B : Type} (r : response B) :
  is_error r = false -> raise_for_status r = ret tt.
Proof.
  unfold is_error, raise_for_status. intros H.
  destruct (400 <=? status_code r) eqn:E1; simpl in *.
  - destruct (status_code r <? 500) eqn:E2; [lia |].
    rewrite H. cbn. destruct (500 <=? status_code r); reflexivity.
  - destruct (500 <=? status_code r) eqn:E3; [lia | reflexivity].
Qed.

Lemma raise_for_status_error {B : Type} (r : response B) :
  is_error r = true ->
  raise_for_status r =
    raise (HTTPError (Py.str_int (status_code r) ++
                      (if status_code r <? 500 then " Client Error: "
                       else " Server Error: ") ++
                      reason r ++ " for url: " ++ url r)).
Proof.
  unfold is_error, raise_for_status. intros H.
  apply andb_true_iff in H as [H1 H2]. rewrite H1. cbn [andb].
  destruct (status_code r <? 500) eqn:E; [reflexivity |].
  rewrite H2. replace (500 <=? status_code r) with true by lia. reflexivity.
Qed.

(** Once the date has parsed, exactly one request is sent, whatever the
    provider answers. *)
Lemma get_historical_price_requests net coin_id date_str dt :
  fromisoformat (Py.replace date_str "Z" "+00:00") = Returns dt ->
  requests_of (fst (get_historical_price net coin_id date_str)) =
    [history_url coin_id dt].
Proof.
  intros E. unfold get_historical_price. rewrite E.
  rewrite strftime_day_month_year. fold (history_url coin_id dt).
  set (u := history_url coin_id dt).
  unfold requests_get, bound_response. rewrite bind_assoc, bind_emit.
  destruct (net u) as [r | m | m | m]; try reflexivity.
  rewrite bind_ret.
  destruct (is_error r) eqn:Er.
  - rewrite (raise_for_status_error r Er). reflexivity.
  - rewrite (raise_for_status_ok r Er), bind_ret.
    unfold response_json.
    destruct (json r) as [j | m]; [| reflexivity].
    rewrite bind_ret.
    destruct j as [[| | [[| | [[| | p]]]]]]; reflexivity.
Qed.


(** C10.  Two timestamps that parse to the same calendar date, whatever
    their times of day, make the function send the same single request and
    give the same trace and result against the same provider. *)
Theorem C10_same_day_same_lookup (net : string -> reply History.t)
    (coin_id : option string) (s1 s2 : string) (d1 d2 : datetime) :
  fromisoformat (Py.replace s1 "Z" "+00:00") = Returns d1 ->
  fromisoformat (Py.replace s2 "Z" "+00:00") = Returns d2 ->
  year d1 = year d2 -> month d1 = month d2 -> day d1 = day d2 ->
  get_historical_price net coin_id s1 = get_historical_price net coin_id s2 /\
  requests_of (fst (get_historical_price net coin_id s1)) = [history_url coin_id d1] /\
  requests_of (fst (get_historical_price net coin_id s2)) = [history_url coin_id d1].
Proof.
  intros E1 E2 Hy Hm Hd.
  assert (Hu : history_url coin_id d2 = history_url coin_id d1).
  { unfold history_url. now rewrite Hy, Hm, Hd. }
  pose proof (get_historical_price_requests net coin_id s1 d1 E1) as H1.
  pose proof (get_historical_price_requests net coin_id s2 d2 E2) as H2.
  rewrite Hu in H2.
  split; [| now split].
  unfold get_historical_price. rewrite E1, E2, !strftime_day_month_year.
  now rewrite Hy, Hm, Hd.
Qed.

Lemma C10_same_day_same_lookup_witness :
  get_historical_price Sample.history_provider (Some "solana") "2023-01-05 10:00:00" =
  get_historical_price Sample.history_provider (Some "solana") "2023-01-05T23:59:59+05:30" /\
  requests_of (fst (get_historical_price Sample.history_provider (Some "solana")
                      "2023-01-05 10:00:00")) =
    ["https://api.coingecko.com/api/v3/coins/solana/history?date=05-01-2023"].
Proof.
  destruct (C10_same_day_same_lookup Sample.history_provider (Some "solana")
              "2023-01-05 10:00:00" "2023-01-05T23:59:59+05:30"
              (mk_datetime 2023 1 5 10 0 0 0 None)
              (mk_datetime 2023 1 5 23 59 59 0 (Some 19800000000)))
    as (H & H1 & _); try reflexivity.
  split; [exact H | exact H1].
Defined.

(** ** get_token_data *)

(** On a successful answer whose document has no [null] object, the
    function formats the two dates and then either warns that the price is
    missing or returns the record. *)
Lemma get_token_data_document net addr r j ta sa tg sg :
  net (contract_url addr) = Response r ->
  is_error r = false ->
  json r = Document j ->
  Coin.null_object j = false ->
  format_datetime (Coin.ath_timestamp j) = (ta, Returns sa) ->
  format_datetime (get (Coin.genesis_date j)) = (tg, Returns sg) ->
  get_token_data net addr =
    match Coin.ath_price j with
    | Some p =>
        (HttpGet (contract_url addr) :: List.app ta tg,
         Returns (Some (extracted j addr p sa sg)))
    | None =>
        (HttpGet (contract_url addr) ::
         List.app ta (List.app tg
           [Print ("[bold yellow]Warning:[/bold yellow] ATH price data not found for " ++
                   Py.str_opt (get_default (Coin.name j) "N/A") ++ " (" ++
                   Py.str_opt (get_default (Coin.symbol j) "N/A") ++ ").")]),
         Returns None)
    end.
Proof.
  intros Hr Er Hj Hnull Ha Hg.
  unfold get_token_data. fold (contract_url addr).
  unfold requests_get. rewrite bind_assoc, bind_emit, Hr, bind_ret.
  rewrite (raise_for_status_ok r Er), bind_ret.
  unfold response_json. rewrite Hj, bind_ret.
  destruct j as [n s g i md]. unfold Coin.ath_price, Coin.ath_timestamp, Coin.null_object in *.
  cbn [Coin.name Coin.symbol Coin.genesis_date Coin.id Coin.market_data] in *.
  destruct md as [| | [a ad]]; [| discriminate |];
    cbn [Coin.ath Coin.ath_date Coin.no_market get_default method_get] in *;
    rewrite ?bind_ret.
  - cbn [Coin.no_price Coin.no_date price_usd date_usd get method_get] in *.
    rewrite ?bind_ret, Ha, bind_returns, Hg. reflexivity.
  - destruct a as [| | [p]]; [| discriminate |];
      (destruct ad as [| | [d]]; [| discriminate |]);
      cbn [Coin.no_price Coin.no_date price_usd date_usd get get_default method_get] in *;
      rewrite ?bind_ret, Ha, bind_returns, Hg;
      try reflexivity;
      (destruct p as [| | p]; cbn; rewrite ?app_nil_r; reflexivity).
Qed.

(** A [null] object on the way to a [usd] key makes a [get] fail; the last
    clause of the function catches the error. *)
Lemma get_token_data_null_object net addr r j :
  net (contract_url addr) = Response r ->
  is_error r = false ->
  json r = Document j ->
  Coin.null_object j = true ->
  get_token_data net addr =
    ([HttpGet (contract_url addr);
      Print "[bold red]An unexpected error occurred:[/bold red] 'NoneType' object has no attribute 'get'";
      PrintTraceback],
     Returns None).
Proof.
  intros Hr Er Hj Hnull.
  unfold get_token_data. fold (contract_url addr).
  unfold requests_get. rewrite bind_assoc, bind_emit, Hr, bind_ret.
  rewrite (raise_for_status_ok r Er), bind_ret.
  unfold response_json. rewrite Hj, bind_ret.
  destruct j as [n s g i md]. unfold Coin.null_object in Hnull.
  cbn [Coin.market_data] in *.
  destruct md as [| | [a ad]]; [discriminate | reflexivity |].
  cbn [Coin.ath Coin.ath_date] in Hnull.
  destruct a as [| | [p]]; destruct ad as [| | [d]];
    try discriminate; reflexivity.
Qed.

(** An HTTP error status: the 404 message, or the error with the status,
    the reason and the body of the answer. *)
Lemma get_token_data_http_error net addr r :
  net (contract_url addr) = Response r ->
  is_error r = true ->
  get_token_data net addr =
    ([HttpGet (contract_url addr);
      Print (if status_code r =? 404 then
               "[bold red]Error:[/bold red] Coin not found on CoinGecko (404). Please check the contract address: [cyan]" ++
               addr ++ "[/cyan]"
             else
               "[bold red]HTTP Error:[/bold red] " ++
               (Py.str_int (status_code r) ++
                (if status_code r <? 500 then " Client Error: " else " Server Error: ") ++
                reason r ++ " for url: " ++ url r) ++
               " - " ++ text r)],
     Returns None).
Proof.
  intros Hr Er.
  unfold get_token_data. fold (contract_url addr).
  unfold requests_get. rewrite bind_assoc, bind_emit, Hr, bind_ret.
  rewrite (raise_for_status_error r Er).
  unfold bound_response. rewrite Hr. cbn.
  destruct (status_code r =? 404); reflexivity.
Qed.



(** ** main *)










Example main_sample_run :
  exit_code (main Sample.run) = 0 /\
  requests_of (fst (main Sample.run)) =
    ["https://api.coingecko.com/api/v3/coins/solana/contract/so11111111111111111111111111111111111111112";
     "https://api.coingecko.com/api/v3/coins/wrapped-solana/history?date=01-01-2023"] /\
  prompts_of (fst (main Sample.run)) =
    ["[bold]Enter the Solana Contract Address[/bold]";
     "[bold]Enter a date and time to check historical price (YYYY-MM-DD HH:MM:SS)[/bold]"].
Proof. repeat split; vm_compute; reflexivity. Qed.

Example main_short_run :
  main Sample.short_run =
    ([ConsoleRule "[bold magenta]Solana Token ATH Checker[/bold magenta]";
      PromptAsk "[bold]Enter the Solana Contract Address[/bold]" None;
      Print "[bold red]Error:[/bold red] Invalid contract address format entered."],
     Raises (SystemExit 1)) /\
  exit_code (main Sample.short_run) = 1.
Proof. split; vm_compute; reflexivity. Qed.



(** ** The report *)







(** ** Missing fields *)





(** ** The report of the sample answer *)





(** ** An absent listing date *)



(** ** Digits written and read back *)

Lemma read_digits_app (acc : Z) (a b : string) :
  read_digits acc (a ++ b) =
  match read_digits acc a with
  | Some v => read_digits v b
  | None => None
  end.
Proof.
  revert acc. induction a as [| c a IH]; intros acc; simpl; [reflexivity |].
  destruct (is_digit c); [apply IH | reflexivity].
Qed.

Lemma digit_char_read (d : Z) :
  0 <= d < 10 ->
  is_digit (Py.digit_char d) = true /\ digit_value (Py.digit_char d) = d.
Proof.
  intros H.
  assert (E : d = 0 \/ d = 1 \/ d = 2 \/ d = 3 \/ d = 4 \/ d = 5 \/ d = 6 \/
              d = 7 \/ d = 8 \/ d = 9) by lia.
  repeat (destruct E as [-> | E]; [now split |]). subst d. now split.
Qed.

Lemma read_digits_fixed (w : nat) (acc n : Z) :
  0 <= n ->
  read_digits acc (Py.digits w n) = Some (acc * 10 ^ Z.of_nat w + n mod 10 ^ Z.of_nat w).
Proof.
  revert acc n. induction w as [| w IH]; intros acc n Hn.
  - simpl. rewrite Z.mod_1_r. f_equal. lia.
  - cbn [Py.digits]. rewrite read_digits_app, IH by (apply Z.div_pos; lia).
    cbn [read_digits].
    destruct (digit_char_read (n mod 10)) as [Hd Hv];
      [apply Z.mod_pos_bound; lia |].
    rewrite Hd, Hv. f_equal.
    rewrite Nat2Z.inj_succ, Z.pow_succ_r by lia.
    rewrite (Z.rem_mul_r n 10 (10 ^ Z.of_nat w)) by lia.
    lia.
Qed.

Lemma length_digits (w : nat) (n : Z) : String.length (Py.digits w n) = w.
Proof.
  revert n. induction w as [| w IH]; intros n; [reflexivity |].
  cbn [Py.digits]. rewrite length_append, IH. simpl. lia.
Qed.

Lemma read_digits_uint_acc (d : Decimal.uint) (acc : positive) :
  read_digits (Z.pos acc) (NilEmpty.string_of_uint d) =
  Some (Z.pos (Pos.of_uint_acc d acc)).
Proof.
  revert acc. induction d; intros acc; cbn [NilEmpty.string_of_uint read_digits];
    try reflexivity;
    match goal with
    | |- context [is_digit ?c] => change (is_digit c) with true; cbv iota
    end;
    cbn [Pos.of_uint_acc]; rewrite <- IHd; f_equal;
    rewrite ?Pos2Z.inj_add, ?Pos2Z.inj_mul; unfold digit_value;
    match goal with
    | |- context [Z.of_nat (nat_of_ascii ?c)] =>
        let v := eval vm_compute in (Z.of_nat (nat_of_ascii c)) in
        change (Z.of_nat (nat_of_ascii c)) with v
    end; lia.
Qed.

Lemma read_digits_uint (d : Decimal.uint) :
  read_digits 0 (NilEmpty.string_of_uint d) = Some (Z.of_N (Pos.of_uint d)).
Proof.
  induction d; cbn [NilEmpty.string_of_uint read_digits Pos.of_uint];
    try reflexivity;
    match goal with
    | |- context [is_digit ?c] => change (is_digit c) with true; cbv iota
    end;
    [exact IHd | ..];
    match goal with
    | |- read_digits ?a _ = _ =>
        let v := eval vm_compute in a in change a with v
    end;
    apply read_digits_uint_acc.
Qed.

(** A natural number written by [str] reads back as itself. *)
Lemma read_digits_str_int (n : Z) :
  0 <= n -> read_digits 0 (Py.str_int n) = Some n /\ Py.str_int n <> "".
Proof.
  intros Hn. unfold Py.str_int. destruct n as [| p | p]; [now split | | lia].
  cbn [Z.to_int NilZero.string_of_int].
  pose proof (DecimalPos.Unsigned.of_to p) as Hp.
  destruct (Pos.to_uint p) eqn:E; try discriminate;
    cbn [NilZero.string_of_uint];
    (split; [rewrite read_digits_uint, Hp; reflexivity | discriminate]).
Qed.

(** Digits hold no point, so the first point of a numeral ends its integer
    part. *)
Lemma cut_at_point_digits (a b : string) (acc v : Z) :
  read_digits acc a = Some v ->
  cut_at_point (a ++ String "." b) = (a, b).
Proof.
  revert acc. induction a as [| c a IH]; intros acc H; [reflexivity |].
  cbn [read_digits] in H. cbn [append cut_at_point].
  destruct (is_digit c) eqn:Hc; [| discriminate].
  destruct (Ascii.eqb c ".") eqn:Ec.
  - apply Ascii.eqb_eq in Ec. subst c. discriminate.
  - now rewrite (IH _ H).
Qed.

Lemma digit_not_minus (c : ascii) : is_digit c = true -> Ascii.eqb c "-" = false.
Proof.
  intros H. destruct (Ascii.eqb c "-") eqn:E; [| reflexivity].
  apply Ascii.eqb_eq in E. subst c. discriminate.
Qed.

(** A fixed-point numeral with eight decimals reads back as the number of
    units it was written from, and starts with a digit. *)
Lemma parse_unsigned_fixed (n : Z) :
  0 <= n ->
  exists q,
    parse_unsigned (Fmt.fixed 8 n) = Some q /\ (q == n # 100000000)%Q /\
    parse_decimal (Fmt.fixed 8 n) = parse_unsigned (Fmt.fixed 8 n).
Proof.
  intros Hn. unfold Fmt.fixed.
  set (p := 10 ^ Z.of_nat 8).
  assert (Hp : p = 100000000) by reflexivity.
  destruct (read_digits_str_int (n / p)) as [Hi Hne]; [apply Z.div_pos; lia |].
  unfold parse_decimal.
  destruct (Py.str_int (n / p)) as [| c rest] eqn:Es; [congruence |].
  cbn [append].
  assert (Hc : Ascii.eqb c "-" = false).
  { apply digit_not_minus. cbn [read_digits] in Hi.
    destruct (is_digit c); [reflexivity | discriminate]. }
  rewrite Hc. unfold parse_unsigned.
  change (String c (rest ++ String "." (Py.digits 8 (n mod p))))
    with (String c rest ++ String "." (Py.digits 8 (n mod p))).
  rewrite (cut_at_point_digits _ _ _ _ Hi), Hi.
  rewrite read_digits_fixed by (apply Z.mod_pos_bound; lia).
  rewrite length_digits. fold p.
  eexists. split; [reflexivity |]. split; [| reflexivity].
  rewrite Z.mod_mod by lia. rewrite Hp.
  unfold Qeq, Qplus, Qdiv, Qmult, Qinv, inject_Z. simpl Qnum. simpl Qden.
  pose proof (Z.div_mod n 100000000). lia.
Qed.

(** ** Rounding *)

Lemma round_half_even_close (num den : Z) :
  0 <= num -> 0 < den ->
  0 <= Fmt.round_half_even num den /\
  Z.abs (2 * (Fmt.round_half_even num den * den - num)) <= den.
Proof.
  intros Hnum Hden. unfold Fmt.round_half_even.
  pose proof (Z.div_mod num den) as Hdm.
  pose proof (Z.mod_pos_bound num den Hden) as Hr.
  assert (Hq : 0 <= num / den) by (apply Z.div_pos; lia).
  set (q := num / den) in *. set (r := num mod den) in *.
  assert (Hqd : den * q = q * den) by lia.
  destruct (Z.compare_spec (2 * r) den);
    [destruct (Z.even q) | |]; split; nia.
Qed.

Lemma scaled_round_nonneg (m : positive) (e : Z) : 0 <= Fmt.scaled_round 8 m e.
Proof.
  unfold Fmt.scaled_round. destruct (0 <=? e) eqn:E.
  - apply Z.leb_le in E. apply Z.mul_nonneg_nonneg; [| lia].
    apply Z.mul_nonneg_nonneg; [lia |]. apply Z.pow_nonneg. lia.
  - apply round_half_even_close; [lia |]. apply Z.pow_pos_nonneg; lia.
Qed.

(** The number of units written is within half a unit of the value. *)
Lemma scaled_round_close (m : positive) (e : Z) :
  (Qabs ((Fmt.scaled_round 8 m e # 100000000) - Fmt.magnitude m e)
   <= 1 # 200000000)%Q.
Proof.
  unfold Fmt.scaled_round, Fmt.magnitude.
  change (10 ^ Z.of_nat 8) with 100000000.
  destruct (0 <=? e) eqn:E.
  - set (k := Z.pos m * 2 ^ e).
    apply Qabs_Qle_condition.
    unfold Qle, Qminus, Qplus, Qopp, inject_Z; simpl Qnum; simpl Qden. lia.
  - apply Z.leb_gt in E.
    assert (Hd : Z.pos (2 ^ Z.to_pos (- e)) = 2 ^ (- e)).
    { rewrite Pos2Z.inj_pow, Z2Pos.id by lia. reflexivity. }
    destruct (round_half_even_close (Z.pos m * 100000000) (2 ^ (- e)))
      as [Hn Hc]; [lia | apply Z.pow_pos_nonneg; lia |].
    set (n := Fmt.round_half_even _ _) in *.
    rewrite <- Hd in Hc.
    set (D := (2 ^ Z.to_pos (- e))%positive) in *.
    apply Qabs_Qle_condition.
    unfold Qle, Qminus, Qplus, Qopp; cbn [Qnum Qden].
    rewrite !Pos2Z.inj_mul.
    set (X := n * Z.pos D) in *. set (Y := Z.pos m * 100000000) in *.
    lia.
Qed.

(** ** The displayed price *)

Lemma reparse_shown_price (x : float) :
  reparse_price (shown_price x) = parse_decimal (Fmt.format_f 8 x).
Proof. reflexivity. Qed.

(** C7.  For every finite price, the price string of the report (eight
    decimals), read back as a decimal number, is within half a unit of the
    eighth decimal place of the original value. *)
Theorem C7_price_round_trip (x : float) (v : Q) :
  Fmt.value x = Some v ->
  exists q,
    reparse_price (shown_price x) = Some q /\
    (Qabs (q - v) <= 1 # 200000000)%Q.
Proof.
  rewrite reparse_shown_price. unfold Fmt.value, Fmt.format_f.
  destruct (Prim2SF x) as [s | s | | s m e]; try discriminate.
  - intros [= <-].
    destruct s; eexists; (split; [vm_compute; reflexivity | vm_compute; discriminate]).
  - intros [= <-].
    destruct (parse_unsigned_fixed (Fmt.scaled_round 8 m e) (scaled_round_nonneg m e))
      as (q & Hq & Hv & Hd).
    pose proof (scaled_round_close m e) as Hc.
    destruct s; cbn [Fmt.sign append].
    + unfold parse_decimal. change (Ascii.eqb "-" "-") with true. cbv iota.
      rewrite Hq. cbn [option_map]. eexists. split; [reflexivity |].
      assert (E : (- q - - Fmt.magnitude m e == - (q - Fmt.magnitude m e))%Q) by ring.
      rewrite E, Qabs_opp, Hv. exact Hc.
    + rewrite Hd, Hq. eexists. split; [reflexivity |].
      rewrite Hv. exact Hc.
Qed.

Lemma C7_price_round_trip_witness :
  exists q,
    reparse_price (shown_price 2.5%float) = Some q /\
    (Qabs (q - (5629499534213120 # 2251799813685248)) <= 1 # 200000000)%Q.
Proof.
  apply (C7_price_round_trip 2.5%float). vm_compute. reflexivity.
Defined.

(** * Further properties of the script *)

(** ** format_datetime *)



(** ** get_token_data *)

Lemma upper_char_idempotent (c : ascii) :
  Py.upper_char (Py.upper_char c) = Py.upper_char c.
Proof. destruct c as [[] [] [] [] [] [] [] []]; reflexivity. Qed.

Lemma upper_idempotent (s : string) : Py.upper (Py.upper s) = Py.upper s.
Proof.
  induction s as [| c s IH]; [reflexivity |].
  cbn [Py.upper Py.map_string]. fold (Py.upper s). fold (Py.upper (Py.upper s)).
  now rewrite upper_char_idempotent, IH.
Qed.

Lemma extracted_symbol (j : Coin.t) (addr : string) (p : float) (sa sg : string) :
  symbol (extracted j addr p sa sg) <> "" /\
  Py.upper (symbol (extracted j addr p sa sg)) = symbol (extracted j addr p sa sg).
Proof.
  cbn [symbol extracted].
  destruct (get_default (Coin.symbol j) "N/A") as [[| c s] |];
    cbn [Py.truthy]; try (split; [discriminate | reflexivity]).
  split; [discriminate | apply upper_idempotent].
Qed.

(** What an answer must be for the function to return a record. *)
Lemma get_token_data_inversion net addr t td :
  get_token_data net addr = (t, Returns (Some td)) ->
  exists r j p,
    net (contract_url addr) = Response r /\
    is_error r = false /\
    json r = Document j /\
    Coin.null_object j = false /\
    Coin.ath_price j = Some p /\
    snd (format_datetime (Coin.ath_timestamp j)) = Returns (ath_date td) /\
    snd (format_datetime (get (Coin.genesis_date j))) = Returns (genesis_date td) /\
    td = extracted j addr p (ath_date td) (genesis_date td).
Proof.
  intros H.
  destruct (net (contract_url addr)) as [r | m | m | m] eqn:Hr.
  2-4: unfold get_token_data in H; fold (contract_url addr) in H;
       unfold requests_get in H; rewrite bind_assoc, bind_emit, Hr in H;
       cbn in H; discriminate H.
  destruct (is_error r) eqn:Er.
  { rewrite (get_token_data_http_error net addr r Hr Er) in H. discriminate H. }
  destruct (json r) as [j | m] eqn:Hj.
  2: { unfold get_token_data in H. fold (contract_url addr) in H.
       unfold requests_get in H. rewrite bind_assoc, bind_emit, Hr, bind_ret in H.
       rewrite (raise_for_status_ok r Er), bind_ret in H.
       unfold response_json in H. rewrite Hj in H. cbn in H. discriminate H. }
  destruct (Coin.null_object j) eqn:Hnull.
  { rewrite (get_token_data_null_object net addr r j Hr Er Hj Hnull) in H.
    discriminate H. }
  destruct (format_datetime_returns (Coin.ath_timestamp j)) as (ta & sa & Ha & _).
  destruct (format_datetime_returns (get (Coin.genesis_date j))) as (tg & sg & Hg & _).
  rewrite (get_token_data_document net addr r j ta sa tg sg Hr Er Hj Hnull Ha Hg) in H.
  destruct (Coin.ath_price j) as [p |] eqn:Hp; [| discriminate H].
  inversion H; subst td. exists r, j, p.
  rewrite Ha, Hg. repeat split; assumption.
Qed.

(** X3.  A record is only ever built from a successful answer that holds a
    JSON document with an all-time-high price and no [null] object; the
    record then carries that price, the address that was asked for, the
    document's coin id, a symbol that is not empty and is in upper case, and
    the two dates as [format_datetime] returns them. *)
Theorem get_token_data_record (net : string -> reply Coin.t) (addr : string)
    (t : list event) (td : token_data) :
  get_token_data net addr = (t, Returns (Some td)) ->
  exists r j p,
    net (contract_url addr) = Response r /\
    is_error r = false /\
    json r = Document j /\
    Coin.ath_price j = Some p /\
    ath_usd td = Some p /\
    contract_address td = addr /\
    coin_id td = get (Coin.id j) /\
    name td = get_default (Coin.name j) "N/A" /\
    symbol td <> "" /\
    Py.upper (symbol td) = symbol td /\
    snd (format_datetime (Coin.ath_timestamp j)) = Returns (ath_date td) /\
    snd (format_datetime (get (Coin.genesis_date j))) = Returns (genesis_date td).
Proof.
  intros H.
  destruct (get_token_data_inversion net addr t td H)
    as (r & j & p & Hr & Er & Hj & _ & Hp & Ha & Hg & Htd).
  exists r, j, p.
  destruct (extracted_symbol j addr p (ath_date td) (genesis_date td)) as [Hs Hu].
  rewrite <- Htd in Hs, Hu.
  repeat split; try assumption; rewrite Htd; reflexivity.
Qed.

Lemma get_token_data_record_witness :
  exists r j p,
    Sample.contract_provider (contract_url Sample.address) = Response r /\
    json r = Document j /\
    Coin.ath_price j = Some p /\
    ath_usd Sample.record = Some p.
Proof.
  destruct (get_token_data_record Sample.contract_provider Sample.address
              [HttpGet (contract_url Sample.address)] Sample.record)
    as (r & j & p & Hr & _ & Hj & Hp & Hu & _).
  - vm_compute. reflexivity.
  - now exists r, j, p.
Defined.





(** ** get_historical_price *)




(** ** main, step by step *)














(** ** Plain dates *)

Lemma digit_not_Z (c : ascii) : is_digit c = true -> Ascii.eqb c "Z" = false.
Proof.
  intros H. destruct (Ascii.eqb c "Z") eqn:E; [| reflexivity].
  apply Ascii.eqb_eq in E. subst c. discriminate.
Qed.

Lemma minus_not_Z (c : ascii) : Ascii.eqb "-" c = true -> Ascii.eqb c "Z" = false.
Proof. intros H. apply Ascii.eqb_eq in H. now subst c. Qed.

Lemma new_datetime_value y m d h mi s us tz dt :
  new_datetime y m d h mi s us tz = Returns dt ->
  dt = mk_datetime y m d h mi s us tz.
Proof.
  unfold new_datetime.
  repeat match goal with
         | |- context [if ?b then _ else _] => destruct b
         end; intros H; inversion H; reflexivity.
Qed.

(** X12.  A date given in the plain form [YYYY-MM-DD], as the provider
    gives the listing date, is shown as midnight of that day with no time
    zone: the text ends in [at 12:00:00 AM] and a blank, and nothing is
    printed. *)
Theorem format_datetime_plain_date (s : string) (dt : datetime) :
  String.length s = 10%nat ->
  fromisoformat s = Returns dt ->
  format_datetime (Some s) =
    ([], Returns (month_name (month dt) ++ " " ++ Py.fmt_0d 2 (day dt) ++ ", " ++
                  Py.fmt_0d 4 (year dt) ++ " at 12:00:00 AM ")).
Proof.
  intros Hlen Hparse.
  do 11 (destruct s as [| ? s]; try discriminate Hlen). clear Hlen.
  pose proof Hparse as H.
  cbv beta iota delta [fromisoformat parse_isoformat_date parse_digits
                         parse_digits_from expect] in H.
  repeat match type of H with
         | context [if is_digit ?c then _ else _] =>
             let E := fresh "E" in
             destruct (is_digit c) eqn:E; [apply digit_not_Z in E | discriminate H]
         | context [if Ascii.eqb "-" ?c then _ else _] =>
             let E := fresh "E" in
             destruct (Ascii.eqb "-" c) eqn:E; [apply minus_not_Z in E | discriminate H]
         end.
  apply new_datetime_value in H.
  unfold format_datetime. cbn [Py.truthy negb].
  assert (HZ : Py.endswith (String a (String a0 (String a1 (String a2 (String a3
                 (String a4 (String a5 (String a6 (String a7 (String a8 "")))))))))) "Z"
               = false).
  { unfold Py.endswith. cbn. now rewrite E8. }
  rewrite HZ.
  assert (HR : Py.replace (String a (String a0 (String a1 (String a2 (String a3
                 (String a4 (String a5 (String a6 (String a7 (String a8 ""))))))))))
                 "Z" "+00:00" =
               String a (String a0 (String a1 (String a2 (String a3
                 (String a4 (String a5 (String a6 (String a7 (String a8 "")))))))))).
  { cbn [Py.replace]. now rewrite E, E0, E1, E2, E3, E4, E5, E6, E7, E8. }
  rewrite HR, Hparse. cbn [lift bind try_except ret fst snd app].
  rewrite strftime_report. subst dt. reflexivity.
Qed.

Lemma format_datetime_plain_date_witness :
  format_datetime (Some "2020-04-10") =
    ([], Returns "April 10, 2020 at 12:00:00 AM ").
Proof.
  apply (format_datetime_plain_date "2020-04-10"
           (mk_datetime 2020 4 10 0 0 0 0 None)); reflexivity.
Defined.

(** ** The address that is sent *)
















(** ** The check of the date and its lookup *)

Lemma replace_blank (s : string) :
  Py.replace s " " "T" = Py.map_string blank_to_T s.
Proof.
  induction s as [| c s IH]; [reflexivity |].
  cbn [Py.replace Py.map_string]. unfold blank_to_T at 1.
  destruct (Ascii.eqb c " "); now rewrite IH.
Qed.

Lemma replace_absent (s : string) (new : string) :
  Py.has_char "Z" s = false -> Py.replace s "Z" new = s.
Proof.
  induction s as [| c s IH]; [reflexivity |].
  cbn [Py.has_char Py.replace]. intros H.
  apply orb_false_iff in H as [Hc Hs]. rewrite Ascii.eqb_sym, Hc.
  now rewrite (IH Hs).
Qed.

Lemma blank_to_T_digit (c : ascii) : is_digit (blank_to_T c) = is_digit c.
Proof. destruct c as [[] [] [] [] [] [] [] []]; reflexivity. Qed.

Lemma blank_to_T_digit_value (c : ascii) :
  is_digit c = true -> digit_value (blank_to_T c) = digit_value c.
Proof. destruct c as [[] [] [] [] [] [] [] []]; intros H; try discriminate H; reflexivity. Qed.

Lemma blank_to_T_minus (c : ascii) : Ascii.eqb "-" (blank_to_T c) = Ascii.eqb "-" c.
Proof. destruct c as [[] [] [] [] [] [] [] []]; reflexivity. Qed.

Lemma blank_to_T_is_minus (c : ascii) : Ascii.eqb (blank_to_T c) "-" = Ascii.eqb c "-".
Proof. destruct c as [[] [] [] [] [] [] [] []]; reflexivity. Qed.

Lemma blank_to_T_colon (c : ascii) : Ascii.eqb (blank_to_T c) ":" = Ascii.eqb c ":".
Proof. destruct c as [[] [] [] [] [] [] [] []]; reflexivity. Qed.

Lemma blank_to_T_point (c : ascii) : Ascii.eqb (blank_to_T c) "." = Ascii.eqb c ".".
Proof. destruct c as [[] [] [] [] [] [] [] []]; reflexivity. Qed.

Lemma blank_to_T_sign (c : ascii) : is_sign (blank_to_T c) = is_sign c.
Proof. destruct c as [[] [] [] [] [] [] [] []]; reflexivity. Qed.

Lemma blank_to_T_not_nul (c : ascii) : not_nul (blank_to_T c) = not_nul c.
Proof. destruct c as [[] [] [] [] [] [] [] []]; reflexivity. Qed.

Lemma length_map_string (f : ascii -> ascii) (s : string) :
  String.length (Py.map_string f s) = String.length s.
Proof. induction s as [| c s IH]; [reflexivity |]. cbn. now rewrite IH. Qed.

Lemma parse_digits_from_blank (n : nat) (acc : Z) (s : string) :
  parse_digits_from acc n (Py.map_string blank_to_T s) =
  match parse_digits_from acc n s with
  | Some (v, r) => Some (v, Py.map_string blank_to_T r)
  | None => None
  end.
Proof.
  revert acc s. induction n as [| n IH]; intros acc s; [reflexivity |].
  destruct s as [| c s]; [reflexivity |].
  cbn [Py.map_string parse_digits_from]. rewrite blank_to_T_digit.
  destruct (is_digit c) eqn:Ec; [| reflexivity].
  rewrite (blank_to_T_digit_value c Ec). apply IH.
Qed.

Lemma expect_blank (s : string) :
  expect "-" (Py.map_string blank_to_T s) =
  option_map (Py.map_string blank_to_T) (expect "-" s).
Proof.
  destruct s as [| c s]; [reflexivity |].
  cbn [Py.map_string expect]. rewrite blank_to_T_minus.
  destruct (Ascii.eqb "-" c); reflexivity.
Qed.

Lemma parse_isoformat_date_blank (s : string) :
  parse_isoformat_date (Py.map_string blank_to_T s) =
  match parse_isoformat_date s with
  | Some (y, m, d, r) => Some (y, m, d, Py.map_string blank_to_T r)
  | None => None
  end.
Proof.
  unfold parse_isoformat_date, parse_digits.
  rewrite parse_digits_from_blank.
  destruct (parse_digits_from 0 4 s) as [[y s1] |]; [| reflexivity].
  rewrite expect_blank. destruct (expect "-" s1) as [s2 |]; [| reflexivity].
  cbn [option_map]. rewrite parse_digits_from_blank.
  destruct (parse_digits_from 0 2 s2) as [[m s3] |]; [| reflexivity].
  rewrite expect_blank. destruct (expect "-" s3) as [s4 |]; [| reflexivity].
  cbn [option_map]. rewrite parse_digits_from_blank.
  destruct (parse_digits_from 0 2 s4) as [[d r] |]; reflexivity.
Qed.

Lemma parse_fraction_blank (part : string) (next : option ascii) :
  parse_fraction (Py.map_string blank_to_T part) (option_map blank_to_T next) =
  parse_fraction part next.
Proof.
  unfold parse_fraction, parse_digits.
  rewrite length_map_string, parse_digits_from_blank.
  destruct ((String.length part =? 3) || (String.length part =? 6))%nat;
    [| reflexivity].
  destruct (parse_digits_from 0 (String.length part) part) as [[v r] |];
    [| reflexivity].
  destruct next as [c |]; cbn [option_map]; [| reflexivity].
  now rewrite blank_to_T_not_nul.
Qed.

Lemma parse_fields_blank (left : nat) (part : string) (next : option ascii) :
  parse_fields left (Py.map_string blank_to_T part) (option_map blank_to_T next) =
  parse_fields left part next.
Proof.
  revert part. induction left as [| left IH]; intros part.
  - cbn [parse_fields]. now rewrite parse_fraction_blank.
  - cbn [parse_fields]. unfold parse_digits. rewrite parse_digits_from_blank.
    destruct (parse_digits_from 0 2 part) as [[v rest] |]; [| reflexivity].
    destruct rest as [| c more]; cbn [Py.map_string].
    + destruct next as [c |]; cbn [option_map]; [| reflexivity].
      now rewrite blank_to_T_not_nul.
    + destruct more as [| c' more']; cbn [Py.map_string].
      * now rewrite blank_to_T_not_nul.
      * rewrite blank_to_T_colon, blank_to_T_point.
        change (String (blank_to_T c') (Py.map_string blank_to_T more'))
          with (Py.map_string blank_to_T (String c' more')).
        now rewrite IH, parse_fraction_blank.
Qed.

Lemma parse_hh_mm_ss_ff_blank (part : string) (next : option ascii) :
  parse_hh_mm_ss_ff (Py.map_string blank_to_T part) (option_map blank_to_T next) =
  parse_hh_mm_ss_ff part next.
Proof. unfold parse_hh_mm_ss_ff. now rewrite parse_fields_blank. Qed.

Lemma split_at_sign_blank (s : string) :
  split_at_sign (Py.map_string blank_to_T s) =
  (Py.map_string blank_to_T (fst (split_at_sign s)),
   Py.map_string blank_to_T (snd (split_at_sign s))).
Proof.
  induction s as [| c s IH]; [reflexivity |].
  cbn [Py.map_string split_at_sign]. rewrite blank_to_T_sign.
  destruct (is_sign c); [reflexivity |].
  rewrite IH. destruct (split_at_sign s). reflexivity.
Qed.

Lemma parse_isoformat_time_blank (tstr : string) :
  parse_isoformat_time (Py.map_string blank_to_T tstr) = parse_isoformat_time tstr.
Proof.
  unfold parse_isoformat_time. rewrite split_at_sign_blank.
  destruct (split_at_sign tstr) as [tpart tzpart]. cbn [fst snd].
  pose proof (parse_hh_mm_ss_ff_blank tpart None) as H0.
  cbn [option_map] in H0.
  destruct tzpart as [| sg tzrest]; cbn [Py.map_string].
  - now rewrite H0.
  - pose proof (parse_hh_mm_ss_ff_blank tpart (Some sg)) as H1.
    pose proof (parse_hh_mm_ss_ff_blank tzrest None) as H2.
    cbn [option_map] in H1, H2. rewrite H1, H2.
    cbn [String.length]. rewrite length_map_string, blank_to_T_is_minus.
    reflexivity.
Qed.

(** Turning blanks into [T] changes no date that parses. *)
Lemma fromisoformat_blank (s : string) (dt : datetime) :
  fromisoformat (Py.map_string blank_to_T s) = Returns dt <->
  fromisoformat s = Returns dt.
Proof.
  unfold fromisoformat. rewrite parse_isoformat_date_blank.
  destruct (parse_isoformat_date s) as [[[[y m] d] rest] |];
    [| split; discriminate].
  destruct rest as [| c tstr]; cbn [Py.map_string]; [reflexivity |].
  rewrite parse_isoformat_time_blank.
  destruct (parse_isoformat_time tstr) as [[[[[h mi] sec] us] tz] |];
    [reflexivity | split; discriminate].
Qed.

(** X14.  The date checked by [main] (blanks read as [T]) and the date
    parsed by [get_historical_price] (each [Z] read as [+00:00]) agree on
    every string without a [Z]: a date that passes the check is parsed to the
    same value by the lookup, which therefore never refuses it and always
    sends the request for that day. *)
Theorem checked_date_is_looked_up (net : string -> reply History.t)
    (coin_id : option string) (d : string) (dt : datetime) :
  Py.has_char "Z" d = false ->
  fromisoformat (Py.replace d " " "T") = Returns dt ->
  fromisoformat (Py.replace d "Z" "+00:00") = Returns dt /\
  requests_of (fst (get_historical_price net coin_id d)) = [history_url coin_id dt].
Proof.
  intros HZ Hcheck.
  rewrite replace_blank in Hcheck.
  apply (proj1 (fromisoformat_blank d dt)) in Hcheck.
  assert (E : fromisoformat (Py.replace d "Z" "+00:00") = Returns dt)
    by (rewrite (replace_absent d _ HZ); exact Hcheck).
  split; [exact E |]. now apply get_historical_price_requests.
Qed.

Lemma checked_date_is_looked_up_witness :
  requests_of (fst (get_historical_price Sample.history_provider (Some "solana")
                      "2023-01-05 10:00:00")) =
    ["https://api.coingecko.com/api/v3/coins/solana/history?date=05-01-2023"].
Proof.
  apply (checked_date_is_looked_up Sample.history_provider (Some "solana")
           "2023-01-05 10:00:00" (mk_datetime 2023 1 5 10 0 0 0 None));
    reflexivity.
Defined.
